(** * Multi-agent travel planner: the orchestration pipeline

    A shallow embedding of [src/travel_planner_system.py]: the three stage
    agents ([ResearchAgent], [PlanningAgent], [PersonalizationAgent]), the
    timing wrapper [BaseAgent.process] and
    [TravelPlanningOrchestrator.plan_trip].

    Python dictionaries are association lists in insertion order, Python
    floats are binary64 primitive floats, Python integers are [Z].  The
    external world is an environment [Env]: the text-generation provider
    (an arbitrary function of the call number and of the request, so any
    sequence of successes and failures is covered) and the wall clock read
    by [time.time()].  Effects (provider calls, log lines, the agents'
    stored [processing_time]) are threaded through a state-and-exception
    monad; [await] on a coroutine is sequential composition.

    Not modelled: the rendered text of the prompts (a prompt is its template
    and the values interpolated into it), resource limits (memory, recursion
    depth), and exceptions outside [Exception] such as task cancellation. *)

From Stdlib Require Import ZArith List String Bool Lia.
From Stdlib Require Import Floats.PrimFloat Floats.SpecFloat Floats.FloatOps.
From Stdlib Require Import DecimalString.
Import ListNotations.

#[local] Set Warnings "-inexact-float,-register-all".
#[local] Open Scope string_scope.
#[local] Open Scope list_scope.

(** ** Python values *)

Inductive value : Type :=
| VNone
| VStr (s : string)
| VInt (n : Z)
| VFloat (x : float)
| VList (l : list value)
| VDict (d : list (string * value)).

Definition dict := list (string * value).

(** Exceptions the modelled code can raise. *)
Inductive exn : Type :=
| KeyError (key : string)
| TypeError (msg : string)
| ZeroDivisionError
| OverflowError.

Fixpoint get (d : dict) (k : string) : option value :=
  match d with
  | [] => None
  | (k', v) :: d' => if String.eqb k' k then Some v else get d' k
  end.

Definition keys (d : dict) : list string := map fst d.

Definition has_key (d : dict) (k : string) : bool :=
  match get d k with Some _ => true | None => false end.

(** [d[k]] *)
Definition getitem (d : dict) (k : string) : exn + value :=
  match get d k with
  | Some v => inr v
  | None => inl (KeyError k)
  end.

(** [v[k]] on a value that is expected to be a dictionary. *)
Definition subscript (v : value) (k : string) : exn + value :=
  match v with
  | VDict d => getitem d k
  | _ => inl (TypeError "object is not subscriptable")
  end.

(** [d.get(k, default)] *)
Definition get_default (d : dict) (k : string) (default : value) : value :=
  match get d k with
  | Some v => v
  | None => default
  end.

(** [str(n)] for an integer. *)
Definition str_of_int (n : Z) : string := NilZero.string_of_int (Z.to_int n).

(** ** Float arithmetic on mixed operands

    [x / n] with a float [x] and an integer [n] first converts [n] to a
    float, which raises [OverflowError] from [2^1024 - 2^970] on (the
    integers that round to above the largest double), and then raises
    [ZeroDivisionError] when the divisor is zero.  An integer converts to
    [0.0] only when it is [0]. *)

Definition DBL_OVERFLOW : Z := (2 ^ 1024 - 2 ^ 970)%Z.

Definition float_of_int (n : Z) : exn + float :=
  if (Z.abs n <? DBL_OVERFLOW)%Z
  then inr (SF2Prim (binary_normalize prec emax n 0 false))
  else inl OverflowError.

Definition truediv (x : float) (n : Z) : exn + float :=
  match float_of_int n with
  | inl e => inl e
  | inr y => if (n =? 0)%Z then inl ZeroDivisionError else inr (x / y)%float
  end.

(** ** Data model *)

Record TravelConstraints : Type := {
  total_budget_usd : float;
  duration_days : Z;
  traveler_count : Z;
  preferences : list string;
  must_visit : option (list string);
  avoid : option (list string);
  travel_style : string
}.

Inductive AgentType : Type := RESEARCH | PLANNING | PERSONALIZATION.

Definition agent_value (a : AgentType) : string :=
  match a with
  | RESEARCH => "research"
  | PLANNING => "planning"
  | PERSONALIZATION => "personalization"
  end.

Definition str_list (l : list string) : value := VList (map VStr l).

Definition opt_str_list (o : option (list string)) : value :=
  match o with
  | None => VNone
  | Some l => str_list l
  end.

(** [dataclasses.asdict(constraints)] *)
Definition asdict (c : TravelConstraints) : value :=
  VDict [ ("total_budget_usd", VFloat (total_budget_usd c));
          ("duration_days", VInt (duration_days c));
          ("traveler_count", VInt (traveler_count c));
          ("preferences", str_list (preferences c));
          ("must_visit", opt_str_list (must_visit c));
          ("avoid", opt_str_list (avoid c));
          ("travel_style", VStr (travel_style c)) ].

Definition field_names : list string :=
  [ "total_budget_usd"; "duration_days"; "traveler_count"; "preferences";
    "must_visit"; "avoid"; "travel_style" ].

Fixpoint strings_of (l : list value) : option (list string) :=
  match l with
  | [] => Some []
  | VStr s :: l' =>
      match strings_of l' with
      | Some r => Some (s :: r)
      | None => None
      end
  | _ :: _ => None
  end.

(** An optional list field: absent or [None] is the default [None]. *)
Definition optional_list (o : option value) : option (option (list string)) :=
  match o with
  | None => Some None
  | Some VNone => Some None
  | Some (VList l) =>
      match strings_of l with
      | Some r => Some (Some r)
      | None => None
      end
  | Some _ => None
  end.

Definition optional_style (o : option value) : option string :=
  match o with
  | None => Some "balanced"
  | Some (VStr s) => Some s
  | Some _ => None
  end.

(** [TravelConstraints] called with the keyword arguments [kw] (the
    double-star call of the source).  The generated [__init__] raises [TypeError]
    on an unexpected keyword and on a missing required field.  The record is
    typed as the dataclass is annotated; a field value of another dynamic
    type has no representation in the record and is reported as
    [TypeError] here (no theorem below depends on that case). *)
Definition TravelConstraints_init (kw : value) : exn + TravelConstraints :=
  match kw with
  | VDict d =>
      if forallb (fun k => existsb (String.eqb k) field_names) (keys d) then
        match get d "total_budget_usd", get d "duration_days",
              get d "traveler_count", get d "preferences" with
        | Some (VFloat b), Some (VInt n), Some (VInt t), Some (VList ps) =>
            match strings_of ps, optional_list (get d "must_visit"),
                  optional_list (get d "avoid"),
                  optional_style (get d "travel_style") with
            | Some p, Some mv, Some av, Some st =>
                inr {| total_budget_usd := b; duration_days := n;
                       traveler_count := t; preferences := p;
                       must_visit := mv; avoid := av; travel_style := st |}
            | _, _, _, _ => inl (TypeError "field value outside the annotated type")
            end
        | None, _, _, _ | _, None, _, _ | _, _, None, _ | _, _, _, None =>
            inl (TypeError "__init__() missing required positional argument")
        | _, _, _, _ => inl (TypeError "field value outside the annotated type")
        end
      else inl (TypeError "__init__() got an unexpected keyword argument")
  | _ => inl (TypeError "argument after ** must be a mapping")
  end.

(** ** The external world *)

Inductive Client : Type := OpenAI | Anthropic | Gemini.

(** The f-string prompts are kept structured: which template, and the
    values interpolated into it, in the order they occur in the text. *)
Inductive Template : Type :=
| WeatherPrompt | EventsPrompt | AttractionsPrompt | AccommodationPrompt
| TransportPrompt | SynthesisPrompt
| ItineraryPrompt | LogisticsPrompt | CostsPrompt
| PersonalizePrompt | ContextPrompt.

Record Prompt : Type := { template : Template; holes : list value }.

Record Request : Type := {
  client : Client;
  model : string;
  prompt : Prompt;
  temperature : option float;
  max_tokens : option Z
}.

(** A provider call returns the generated text or raises. *)
Inductive Outcome : Type :=
| Success (text : string)
| Failure (error : string).

Definition is_failure (o : Outcome) : bool :=
  match o with Failure _ => true | Success _ => false end.

Record Env : Type := {
  provider : nat -> Request -> Outcome;   (* answer to the n-th provider call *)
  clock : nat -> float                    (* n-th reading of [time.time()] *)
}.

Inductive Level : Type := INFO | ERROR.

(** Observable events.  [EvProcess] and [EvReturn] are call-order
    instrumentation of [BaseAgent.process]: its entry with the input it
    received, and its return with the result. *)
Inductive Event : Type :=
| EvLog (lvl : Level) (msg : list value)
| EvProvider (r : Request) (o : Outcome)
| EvProcess (a : AgentType) (input_data : dict)
| EvReturn (a : AgentType) (result : value).

Record State : Type := {
  n_calls : nat;               (* provider calls made so far *)
  n_ticks : nat;               (* clock readings made so far *)
  research_time : float;       (* research_agent.processing_time *)
  planning_time : float;       (* planning_agent.processing_time *)
  personalization_time : float;(* personalization_agent.processing_time *)
  trace : list Event
}.

(** State after the three [BaseAgent.__init__]: [processing_time = 0.0]. *)
Definition fresh : State :=
  {| n_calls := 0; n_ticks := 0;
     research_time := 0; planning_time := 0; personalization_time := 0;
     trace := [] |}.

Definition processing_time (a : AgentType) (s : State) : float :=
  match a with
  | RESEARCH => research_time s
  | PLANNING => planning_time s
  | PERSONALIZATION => personalization_time s
  end.

Definition set_processing_time (a : AgentType) (x : float) (s : State) : State :=
  {| n_calls := n_calls s; n_ticks := n_ticks s;
     research_time := match a with RESEARCH => x | _ => research_time s end;
     planning_time := match a with PLANNING => x | _ => planning_time s end;
     personalization_time :=
       match a with PERSONALIZATION => x | _ => personalization_time s end;
     trace := trace s |}.

Definition record (t : list Event) (s : State) : State :=
  {| n_calls := n_calls s; n_ticks := n_ticks s;
     research_time := research_time s; planning_time := planning_time s;
     personalization_time := personalization_time s;
     trace := trace s ++ t |}.

Definition called (s : State) : State :=
  {| n_calls := S (n_calls s); n_ticks := n_ticks s;
     research_time := research_time s; planning_time := planning_time s;
     personalization_time := personalization_time s;
     trace := trace s |}.

Definition ticked (s : State) : State :=
  {| n_calls := n_calls s; n_ticks := S (n_ticks s);
     research_time := research_time s; planning_time := planning_time s;
     personalization_time := personalization_time s;
     trace := trace s |}.

(** ** State and exception monad *)

Definition M (A : Type) : Type := State -> (exn + A) * State.

Definition ret {A} (a : A) : M A := fun s => (inr a, s).

Definition raise {A} (e : exn) : M A := fun s => (inl e, s).

Definition bind {A B} (m : M A) (f : A -> M B) : M B :=
  fun s =>
    match m s with
    | (inr a, s') => f a s'
    | (inl e, s') => (inl e, s')
    end.

Definition lift {A} (r : exn + A) : M A :=
  match r with
  | inr a => ret a
  | inl e => raise e
  end.

Declare Scope py_scope.
Delimit Scope py_scope with py.
Notation "x <- m ;; k" := (bind m (fun x => k))
  (at level 61, m at next level, right associativity) : py_scope.
Notation "m ;; k" := (bind m (fun _ => k))
  (at level 61, right associativity) : py_scope.
#[local] Open Scope py_scope.

Definition emit (e : Event) : M unit := fun s => (inr tt, record [e] s).

(** [logger.info] / [logger.error] *)
Definition log (lvl : Level) (msg : list value) : M unit := emit (EvLog lvl msg).

Definition read_time (a : AgentType) : M float :=
  fun s => (inr (processing_time a s), s).

Definition write_time (a : AgentType) (x : float) : M unit :=
  fun s => (inr tt, set_processing_time a x s).

(** Events of one guarded provider call: the call, and the error log line
    of the [except] branch. *)
Definition request_events (req : Request) (o : Outcome) (label : string) : list Event :=
  EvProvider req o ::
  match o with
  | Success _ => []
  | Failure e => [EvLog ERROR [VStr label; VStr e]]
  end.

(** What a guarded call returns: the wrapped text, or the fallback. *)
Definition recover (o : Outcome) (wrap : string -> value) (fallback : value) : value :=
  match o with
  | Success text => wrap text
  | Failure _ => fallback
  end.

Section World.

Variable env : Env.

(** [time.time()] *)
Definition time_time : M float :=
  fun s => (inr (clock env (n_ticks s)), ticked s).

(** The provider call itself. *)
Definition create (req : Request) : M Outcome :=
  fun s => let o := provider env (n_calls s) req in
           (inr o, record [EvProvider req o] (called s)).

(** [try: r = <provider call>; return wrap(r)
     except Exception as e: logger.error(f"<label>{e}"); return fallback] *)
Definition guarded (req : Request) (wrap : string -> value)
           (label : string) (fallback : value) : M value :=
  o <- create req ;;
  match o with
  | Success text => ret (wrap text)
  | Failure e => log ERROR [VStr label; VStr e] ;; ret fallback
  end.

End World.

Definition entry (k : string) (text : string) : value := VDict [(k, VStr text)].

(** ** Research agent (OpenAI client, model [gpt-4]) *)

Module ResearchAgent.

Definition chat (t : Template) (hs : list value) (temp : float) : Request :=
  {| client := OpenAI; model := "gpt-4";
     prompt := {| template := t; holes := hs |};
     temperature := Some temp; max_tokens := None |}.

Definition weather_request (destination : value) (duration : Z) : Request :=
  chat WeatherPrompt [destination; VInt duration] 0.1.

Definition events_request (destination : value) : Request :=
  chat EventsPrompt [destination] 0.1.

Definition attractions_request (destination : value) : Request :=
  chat AttractionsPrompt [destination] 0.1.

(** [total_budget_usd * 0.3 / duration_days], computed before the [try]. *)
Definition budget_per_night (constraints : TravelConstraints) : exn + float :=
  truediv (total_budget_usd constraints * 0.3)%float (duration_days constraints).

Definition accommodation_request (destination : value)
           (constraints : TravelConstraints) (per_night : float) : Request :=
  chat AccommodationPrompt
       [ destination; VInt (traveler_count constraints); VFloat per_night;
         VInt (duration_days constraints); VStr (travel_style constraints) ] 0.1.

Definition transport_request (destination : value)
           (constraints : TravelConstraints) : Request :=
  chat TransportPrompt
       [ destination; VInt (duration_days constraints);
         VInt (traveler_count constraints); VStr (travel_style constraints) ] 0.1.

Definition synthesis_request (destination weather events attractions
                              accommodation transport constraints : value) : Request :=
  chat SynthesisPrompt
       [ destination; weather; events; attractions; accommodation; transport;
         constraints ] 0.2.

Section Methods.

Variable env : Env.

Definition _get_weather_info (destination : value) (duration : Z) : M value :=
  guarded env (weather_request destination duration)
          (entry "weather_summary") "Weather API error: "
          (entry "weather_summary" "Weather information unavailable").

Definition _get_local_events (destination : value) : M value :=
  guarded env (events_request destination)
          (entry "events") "Events research error: "
          (entry "events" "Events information unavailable").

Definition _get_attractions (destination : value) : M value :=
  guarded env (attractions_request destination)
          (entry "attractions") "Attractions research error: "
          (entry "attractions" "Attractions information unavailable").

Definition _get_accommodation_info (destination : value)
           (constraints : TravelConstraints) : M value :=
  per_night <- lift (budget_per_night constraints) ;;
  guarded env (accommodation_request destination constraints per_night)
          (entry "accommodation") "Accommodation research error: "
          (entry "accommodation" "Accommodation information unavailable").

Definition _get_transport_info (destination : value)
           (constraints : TravelConstraints) : M value :=
  guarded env (transport_request destination constraints)
          (entry "transport") "Transport research error: "
          (entry "transport" "Transport information unavailable").

Definition _synthesize_information (data : dict) : M value :=
  destination <- lift (getitem data "destination") ;;
  weather <- lift (getitem data "weather") ;;
  events <- lift (getitem data "events") ;;
  attractions <- lift (getitem data "attractions") ;;
  accommodation <- lift (getitem data "accommodation") ;;
  transport <- lift (getitem data "transport") ;;
  constraints <- lift (getitem data "constraints") ;;
  guarded env (synthesis_request destination weather events attractions
                                 accommodation transport constraints)
          (entry "synthesis") "Synthesis error: "
          (entry "synthesis" "Synthesis unavailable").

Definition _process_internal (input_data : dict) : M value :=
  destination <- lift (getitem input_data "destination") ;;
  kw <- lift (getitem input_data "constraints") ;;
  constraints <- lift (TravelConstraints_init kw) ;;
  weather_info <- _get_weather_info destination (duration_days constraints) ;;
  local_events <- _get_local_events destination ;;
  attractions <- _get_attractions destination ;;
  accommodation_info <- _get_accommodation_info destination constraints ;;
  transport_info <- _get_transport_info destination constraints ;;
  research_summary <-
    _synthesize_information
      [ ("destination", destination);
        ("weather", weather_info);
        ("events", local_events);
        ("attractions", attractions);
        ("accommodation", accommodation_info);
        ("transport", transport_info);
        ("constraints", asdict constraints) ] ;;
  stored <- read_time RESEARCH ;;
  ret (VDict [ ("destination", destination);
               ("research_data", research_summary);
               ("raw_data",
                VDict [ ("weather", weather_info);
                        ("events", local_events);
                        ("attractions", attractions);
                        ("accommodation", accommodation_info);
                        ("transport", transport_info) ]);
               ("processing_time", VFloat stored) ]).

End Methods.

End ResearchAgent.

(** ** Planning agent (Anthropic client) *)

Module PlanningAgent.

Definition message (t : Template) (hs : list value) (limit : Z) : Request :=
  {| client := Anthropic; model := "claude-3-sonnet-20240229";
     prompt := {| template := t; holes := hs |};
     temperature := Some 0.1%float; max_tokens := Some limit |}.

Definition itinerary_request (research_data : value)
           (constraints : TravelConstraints) (destination : value) : Request :=
  message ItineraryPrompt
          [ VInt (duration_days constraints); destination; research_data;
            VFloat (total_budget_usd constraints);
            VInt (traveler_count constraints);
            VStr (travel_style constraints);
            VStr (String.concat ", " (preferences constraints)) ] 4000.

Definition logistics_request (itinerary : value) : Request :=
  message LogisticsPrompt [itinerary] 4000.

Definition costs_request (itinerary : value) (constraints : TravelConstraints) : Request :=
  message CostsPrompt
          [ itinerary; VFloat (total_budget_usd constraints);
            VInt (traveler_count constraints) ] 2000.

Definition _calculate_metrics (itinerary : value) (constraints : TravelConstraints) : value :=
  VDict [ ("budget_utilization", VFloat 0.85);
          ("geographic_efficiency", VFloat 0.92);
          ("time_efficiency", VFloat 0.88);
          ("preference_match", VFloat 0.91) ].

Section Methods.

Variable env : Env.

Definition _generate_itinerary (research_data : value)
           (constraints : TravelConstraints) (destination : value) : M value :=
  guarded env (itinerary_request research_data constraints destination)
          (entry "itinerary") "Itinerary generation error: "
          (entry "itinerary" "Itinerary generation failed").

Definition _optimize_logistics (itinerary : value)
           (constraints : TravelConstraints) : M value :=
  guarded env (logistics_request itinerary)
          (entry "optimized_itinerary") "Logistics optimization error: "
          (VDict [("optimized_itinerary", itinerary)]).

Definition _analyze_costs (itinerary : value)
           (constraints : TravelConstraints) : M value :=
  guarded env (costs_request itinerary constraints)
          (entry "cost_analysis") "Cost analysis error: "
          (entry "cost_analysis" "Cost analysis unavailable").

Definition _process_internal (input_data : dict) : M value :=
  research_data <- lift (getitem input_data "research_data") ;;
  kw <- lift (getitem input_data "constraints") ;;
  constraints <- lift (TravelConstraints_init kw) ;;
  destination <- lift (getitem input_data "destination") ;;
  itinerary <- _generate_itinerary research_data constraints destination ;;
  optimized_itinerary <- _optimize_logistics itinerary constraints ;;
  cost_analysis <- _analyze_costs optimized_itinerary constraints ;;
  stored <- read_time PLANNING ;;
  ret (VDict [ ("destination", destination);
               ("itinerary", optimized_itinerary);
               ("cost_analysis", cost_analysis);
               ("optimization_metrics",
                _calculate_metrics optimized_itinerary constraints);
               ("processing_time", VFloat stored) ]).

End Methods.

End PlanningAgent.

(** ** Personalization agent (Gemini model [gemini-pro]) *)

Module PersonalizationAgent.

Definition generate_content (t : Template) (hs : list value) : Request :=
  {| client := Gemini; model := "gemini-pro";
     prompt := {| template := t; holes := hs |};
     temperature := None; max_tokens := None |}.

(** [xs or 'None specified'] *)
Definition or_none_specified (xs : option (list string)) : value :=
  match xs with
  | Some (x :: l) => str_list (x :: l)
  | _ => VStr "None specified"
  end.

Definition personalize_request (itinerary : value)
           (constraints : TravelConstraints) (research_data : value) : Request :=
  generate_content PersonalizePrompt
    [ itinerary;
      VStr (String.concat ", " (preferences constraints));
      VStr (travel_style constraints);
      VInt (traveler_count constraints);
      or_none_specified (must_visit constraints);
      or_none_specified (avoid constraints);
      research_data ].

Definition context_request (itinerary : value) : Request :=
  generate_content ContextPrompt [itinerary].

Definition _generate_notes (constraints : TravelConstraints) : value :=
  str_list
    [ String.append "Itinerary personalized for "
        (String.append (travel_style constraints) " travel style");
      String.append "Optimized for "
        (String.append (str_of_int (traveler_count constraints)) " travelers");
      String.append "Focused on preferences: "
        (String.concat ", " (firstn 3 (preferences constraints)));
      "Alternative options provided for weather contingencies" ].

Section Methods.

Variable env : Env.

Definition _personalize_itinerary (itinerary : value)
           (constraints : TravelConstraints) (research_data : value) : M value :=
  guarded env (personalize_request itinerary constraints research_data)
          (entry "personalized") "Personalization error: "
          (VDict [("personalized", itinerary)]).

Definition _add_contextual_recommendations (itinerary : value)
           (constraints : TravelConstraints) : M value :=
  guarded env (context_request itinerary)
          (entry "enhanced_itinerary") "Contextual enhancement error: "
          (VDict [("enhanced_itinerary", itinerary)]).

Definition _process_internal (input_data : dict) : M value :=
  itinerary <- lift (getitem input_data "itinerary") ;;
  kw <- lift (getitem input_data "constraints") ;;
  constraints <- lift (TravelConstraints_init kw) ;;
  let research_data := get_default input_data "research_data" (VDict []) in
  personalized <- _personalize_itinerary itinerary constraints research_data ;;
  enhanced <- _add_contextual_recommendations personalized constraints ;;
  stored <- read_time PERSONALIZATION ;;
  ret (VDict [ ("personalized_itinerary", enhanced);
               ("personalization_notes", _generate_notes constraints);
               ("processing_time", VFloat stored) ]).

End Methods.

End PersonalizationAgent.

(** ** The timing wrapper and the orchestrator *)

Module BaseAgent.

Section Methods.

Variable env : Env.

(** The subclass override selected by the agent's type. *)
Definition _process_internal (a : AgentType) : dict -> M value :=
  match a with
  | RESEARCH => ResearchAgent._process_internal env
  | PLANNING => PlanningAgent._process_internal env
  | PERSONALIZATION => PersonalizationAgent._process_internal env
  end.

Definition process (a : AgentType) (input_data : dict) : M value :=
  emit (EvProcess a input_data) ;;
  start_time <- time_time env ;;
  result <- _process_internal a input_data ;;
  end_time <- time_time env ;;
  write_time a (end_time - start_time)%float ;;
  elapsed <- read_time a ;;
  log INFO [ VStr (agent_value a); VStr " agent completed in ";
             VFloat elapsed; VStr "s" ] ;;
  emit (EvReturn a result) ;;
  ret result.

End Methods.

End BaseAgent.

Module TravelPlanningOrchestrator.

Section Methods.

Variable env : Env.

Definition plan_trip (destination : string) (constraints : TravelConstraints)
  : M value :=
  log INFO [VStr "Starting trip planning for "; VStr destination] ;;
  log INFO [VStr "Phase 1: Research Agent processing..."] ;;
  let research_input :=
    [ ("destination", VStr destination);
      ("constraints", asdict constraints) ] in
  research_output <- BaseAgent.process env RESEARCH research_input ;;
  log INFO [VStr "Phase 2: Planning Agent processing..."] ;;
  research_data <- lift (subscript research_output "research_data") ;;
  let planning_input :=
    [ ("destination", VStr destination);
      ("constraints", asdict constraints);
      ("research_data", research_data) ] in
  planning_output <- BaseAgent.process env PLANNING planning_input ;;
  log INFO [VStr "Phase 3: Personalization Agent processing..."] ;;
  research_data' <- lift (subscript research_output "research_data") ;;
  itinerary <- lift (subscript planning_output "itinerary") ;;
  let personalization_input :=
    [ ("destination", VStr destination);
      ("constraints", asdict constraints);
      ("research_data", research_data');
      ("itinerary", itinerary) ] in
  personalization_output <-
    BaseAgent.process env PERSONALIZATION personalization_input ;;
  research_t <- read_time RESEARCH ;;
  planning_t <- read_time PLANNING ;;
  personalization_t <- read_time PERSONALIZATION ;;
  let total_time := (research_t + planning_t + personalization_t)%float in
  log INFO [ VStr "Trip planning completed in "; VFloat total_time;
             VStr " seconds" ] ;;
  research_t' <- read_time RESEARCH ;;
  planning_t' <- read_time PLANNING ;;
  personalization_t' <- read_time PERSONALIZATION ;;
  ret (VDict [ ("destination", VStr destination);
               ("constraints", asdict constraints);
               ("research_output", research_output);
               ("planning_output", planning_output);
               ("personalization_output", personalization_output);
               ("total_processing_time", VFloat total_time);
               ("agent_times",
                VDict [ ("research", VFloat research_t');
                        ("planning", VFloat planning_t');
                        ("personalization", VFloat personalization_t') ]) ]).

End Methods.

End TravelPlanningOrchestrator.

(** * Vocabulary of the properties *)

(** ** Inputs of a stage and of the pipeline *)

(** The integers a float can be divided by. *)
Definition float_divisor (n : Z) : Prop := (n <> 0 /\ Z.abs n < DBL_OVERFLOW)%Z.







Definition research_input (destination : string) (c : TravelConstraints) : dict :=
  [ ("destination", VStr destination); ("constraints", asdict c) ].


(** ** Runs

    [post m s Q]: the run of [m] from [s] ends, by return or by exception,
    in a result and a state that satisfy [Q]; [continue f Q] is [Q] carried
    back over a continuation [f]. *)

Definition post {A} (m : M A) (s : State) (Q : exn + A -> State -> Prop) : Prop :=
  Q (fst (m s)) (snd (m s)).

Definition continue {A B} (f : A -> M B) (Q : exn + B -> State -> Prop)
  : exn + A -> State -> Prop :=
  fun r s =>
    match r with
    | inr a => post (f a) s Q
    | inl e => Q (inl e) s
    end.


(** ** The five Research sub-calls *)









(** ** Expected results *)

(** The four constants of [_calculate_metrics]. *)
Definition placeholder_metrics : value :=
  VDict [ ("budget_utilization", VFloat 0.85);
          ("geographic_efficiency", VFloat 0.92);
          ("time_efficiency", VFloat 0.88);
          ("preference_match", VFloat 0.91) ].


(** ** Call order of a run *)

(** The agent that owns a provider client. *)
Definition owner (cl : Client) : AgentType :=
  match cl with
  | OpenAI => RESEARCH
  | Anthropic => PLANNING
  | Gemini => PERSONALIZATION
  end.

Inductive Mark : Type :=
| Entered (a : AgentType)    (* [process] of [a] invoked *)
| Called (a : AgentType)     (* provider call through the client of [a] *)
| Returned (a : AgentType).  (* [process] of [a] returned *)

(** The order of stage invocations, provider calls and stage returns in a
    trace; log lines are dropped. *)
Fixpoint timeline (t : list Event) : list Mark :=
  match t with
  | [] => []
  | EvLog _ _ :: t' => timeline t'
  | EvProvider r _ :: t' => Called (owner (client r)) :: timeline t'
  | EvProcess a _ :: t' => Entered a :: timeline t'
  | EvReturn a _ :: t' => Returned a :: timeline t'
  end.


Definition stage_marks (a : AgentType) (calls : nat) : list Mark :=
  Entered a :: repeat (Called a) calls ++ [Returned a].

(** Research with its six calls, then Planning with three, then
    Personalization with two. *)
Definition pipeline : list Mark :=
  stage_marks RESEARCH 6 ++ stage_marks PLANNING 3 ++ stage_marks PERSONALIZATION 2.


(** ** Fixtures: the sample request of the test-suite, three providers *)

Definition georgia : TravelConstraints :=
  {| total_budget_usd := 1500; duration_days := 7; traveler_count := 2;
     preferences := ["culture"; "food"]; must_visit := None; avoid := None;
     travel_style := "balanced" |}.



(** A clock that advances 2.5 seconds between two readings. *)
Fixpoint seconds (n : nat) : float :=
  match n with
  | O => 100
  | S m => seconds m + 2.5
  end.

(** Every provider call answers. *)
Definition answering : Env :=
  {| provider := fun _ _ => Success "ok"; clock := seconds |}.



(** ** Further observations on a trace *)

(** The provider requests of a trace, in call order. *)
Fixpoint requests (t : list Event) : list Request :=
  match t with
  | [] => []
  | EvProvider r _ :: t' => r :: requests t'
  | _ :: t' => requests t'
  end.

(** The number of [logger.error] lines. *)
Fixpoint error_logs (t : list Event) : nat :=
  match t with
  | [] => 0
  | EvLog ERROR _ :: t' => S (error_logs t')
  | _ :: t' => error_logs t'
  end.

(** The number of provider calls that raised. *)
Fixpoint failed_calls (t : list Event) : nat :=
  match t with
  | [] => 0
  | EvProvider _ (Failure _) :: t' => S (failed_calls t')
  | _ :: t' => failed_calls t'
  end.

(** The provider calls a stage makes when it returns. *)
Definition stage_calls (a : AgentType) : nat :=
  match a with
  | RESEARCH => 6
  | PLANNING => 3
  | PERSONALIZATION => 2
  end.


(** The fields of [TravelConstraints] without a default. *)
Definition required_fields : list string :=
  ["total_budget_usd"; "duration_days"; "traveler_count"; "preferences"].



(** ** The orchestrator over replaceable stages

    The test-suite patches the three agents' [process] with mocks that
    return a fixed mapping; [plan_trip_with] is [plan_trip] with the
    [process] of each agent as a parameter. *)

Definition plan_trip_with (process : AgentType -> dict -> M value)
           (destination : string) (constraints : TravelConstraints) : M value :=
  log INFO [VStr "Starting trip planning for "; VStr destination] ;;
  log INFO [VStr "Phase 1: Research Agent processing..."] ;;
  let research_input :=
    [ ("destination", VStr destination);
      ("constraints", asdict constraints) ] in
  research_output <- process RESEARCH research_input ;;
  log INFO [VStr "Phase 2: Planning Agent processing..."] ;;
  research_data <- lift (subscript research_output "research_data") ;;
  let planning_input :=
    [ ("destination", VStr destination);
      ("constraints", asdict constraints);
      ("research_data", research_data) ] in
  planning_output <- process PLANNING planning_input ;;
  log INFO [VStr "Phase 3: Personalization Agent processing..."] ;;
  research_data' <- lift (subscript research_output "research_data") ;;
  itinerary <- lift (subscript planning_output "itinerary") ;;
  let personalization_input :=
    [ ("destination", VStr destination);
      ("constraints", asdict constraints);
      ("research_data", research_data');
      ("itinerary", itinerary) ] in
  personalization_output <- process PERSONALIZATION personalization_input ;;
  research_t <- read_time RESEARCH ;;
  planning_t <- read_time PLANNING ;;
  personalization_t <- read_time PERSONALIZATION ;;
  let total_time := (research_t + planning_t + personalization_t)%float in
  log INFO [ VStr "Trip planning completed in "; VFloat total_time;
             VStr " seconds" ] ;;
  research_t' <- read_time RESEARCH ;;
  planning_t' <- read_time PLANNING ;;
  personalization_t' <- read_time PERSONALIZATION ;;
  ret (VDict [ ("destination", VStr destination);
               ("constraints", asdict constraints);
               ("research_output", research_output);
               ("planning_output", planning_output);
               ("personalization_output", personalization_output);
               ("total_processing_time", VFloat total_time);
               ("agent_times",
                VDict [ ("research", VFloat research_t');
                        ("planning", VFloat planning_t');
                        ("personalization", VFloat personalization_t') ]) ]).

(** A patched [process]: it returns its [return_value] and touches nothing. *)
Definition mocked (research planning personalization : value)
  : AgentType -> dict -> M value :=
  fun a _ =>
    ret (match a with
         | RESEARCH => research
         | PLANNING => planning
         | PERSONALIZATION => personalization
         end).

(** * Verification *)

(** ** Dictionaries and the constraint record *)

Lemma strings_of_map (l : list string) : strings_of (map VStr l) = Some l.
Proof.
  induction l as [|x l IH]; cbn; [reflexivity|].
  now rewrite IH.
Qed.

Lemma optional_list_roundtrip (o : option (list string)) :
  optional_list (Some (opt_str_list o)) = Some o.
Proof.
  destruct o as [l|]; cbn; [|reflexivity].
  now rewrite strings_of_map.
Qed.

(** [TravelConstraints( **asdict(c) )] rebuilds [c]. *)
Lemma init_asdict (c : TravelConstraints) : TravelConstraints_init (asdict c) = inr c.
Proof.
  destruct c as [b n t p mv av st].
  unfold TravelConstraints_init, asdict.
  cbn -[optional_list strings_of].
  unfold str_list.
  now rewrite strings_of_map, !optional_list_roundtrip.
Qed.



(** ** Division by the trip length *)


Lemma truediv_zero (x : float) : truediv x 0 = inl ZeroDivisionError.
Proof. reflexivity. Qed.

Lemma truediv_overflow (x : float) (n : Z) :
  (DBL_OVERFLOW <= Z.abs n)%Z -> truediv x n = inl OverflowError.
Proof.
  intros H. unfold truediv, float_of_int.
  apply Z.ltb_ge in H. now rewrite H.
Qed.

(** [truediv] fails exactly outside [float_divisor]. *)
Lemma truediv_undefined (x : float) (n : Z) :
  ~ float_divisor n -> exists e, truediv x n = inl e.
Proof.
  intros H. destruct (Z.eq_dec n 0) as [->|Hz].
  - exists ZeroDivisionError. apply truediv_zero.
  - exists OverflowError. apply truediv_overflow.
    destruct (Z_lt_le_dec (Z.abs n) DBL_OVERFLOW); [|assumption].
    exfalso. apply H. now split.
Qed.

(** ** Reasoning about runs *)

Lemma post_bind {A B} (m : M A) (f : A -> M B) s Q :
  post m s (continue f Q) -> post (bind m f) s Q.
Proof.
  unfold post, continue, bind.
  destruct (m s) as [[e|a] s']; cbn; auto.
Qed.

Lemma post_ret {A} (a : A) s Q : Q (inr a) s -> post (ret a) s Q.
Proof. auto. Qed.

Lemma post_lift {A} (r : exn + A) s Q : Q r s -> post (lift r) s Q.
Proof. destruct r; auto. Qed.

Lemma post_emit (e : Event) s Q : Q (inr tt) (record [e] s) -> post (emit e) s Q.
Proof. auto. Qed.

Lemma post_log lvl msg s Q :
  Q (inr tt) (record [EvLog lvl msg] s) -> post (log lvl msg) s Q.
Proof. auto. Qed.

Lemma post_read_time a s Q :
  Q (inr (processing_time a s)) s -> post (read_time a) s Q.
Proof. auto. Qed.

Lemma post_write_time a x s Q :
  Q (inr tt) (set_processing_time a x s) -> post (write_time a x) s Q.
Proof. auto. Qed.

Lemma post_time_time env s Q :
  Q (inr (clock env (n_ticks s))) (ticked s) -> post (time_time env) s Q.
Proof. auto. Qed.

Lemma record_record t1 t2 s : record t2 (record t1 s) = record (t1 ++ t2) s.
Proof. unfold record; cbn. now rewrite app_assoc. Qed.

(** A guarded provider call never raises: it answers with the wrapped
    text or with its fallback, and counts as one call. *)
Lemma guarded_run env req wrap label fallback s :
  guarded env req wrap label fallback s =
  (inr (recover (provider env (n_calls s) req) wrap fallback),
   record (request_events req (provider env (n_calls s) req) label) (called s)).
Proof.
  unfold guarded, bind, create, request_events, recover.
  destruct (provider env (n_calls s) req) as [text|e]; cbn.
  - reflexivity.
  - unfold log, emit. now rewrite record_record.
Qed.

Lemma post_guarded env req wrap label fallback s Q :
  Q (inr (recover (provider env (n_calls s) req) wrap fallback))
    (record (request_events req (provider env (n_calls s) req) label) (called s)) ->
  post (guarded env req wrap label fallback) s Q.
Proof. unfold post. now rewrite guarded_run. Qed.

(** From [post] back to the run. *)
Lemma post_returns {A} (m : M A) s (P : A -> State -> Prop) :
  post m s (fun r s' => match r with inr a => P a s' | inl _ => False end) ->
  exists a s', m s = (inr a, s') /\ P a s'.
Proof.
  unfold post. destruct (m s) as [[e|a] s']; cbn; [tauto|eauto].
Qed.



Lemma recover_success text wrap fallback :
  recover (Success text) wrap fallback = wrap text.
Proof. reflexivity. Qed.

(** One step of symbolic execution. *)
Ltac unfold_methods :=
  unfold ResearchAgent._get_weather_info, ResearchAgent._get_local_events,
    ResearchAgent._get_attractions, ResearchAgent._get_accommodation_info,
    ResearchAgent._get_transport_info, ResearchAgent._synthesize_information,
    PlanningAgent._generate_itinerary, PlanningAgent._optimize_logistics,
    PlanningAgent._analyze_costs,
    PersonalizationAgent._personalize_itinerary,
    PersonalizationAgent._add_contextual_recommendations.

Ltac simpl_state :=
  cbn [n_calls n_ticks research_time planning_time personalization_time trace
       record called ticked set_processing_time processing_time].

Ltac name_outcome :=
  match goal with
  | |- context [provider ?e ?n ?r] =>
      let o := fresh "o" in set (o := provider e n r)
  end.

Ltac step :=
  lazymatch goal with
  | |- post (bind _ _) _ _ => apply post_bind
  | |- post (ret _) _ _ => apply post_ret
  | |- post (lift _) _ _ => apply post_lift
  | |- post (guarded _ _ _ _ _) _ _ =>
      apply post_guarded; simpl_state; name_outcome
  | |- post (emit _) _ _ => apply post_emit
  | |- post (log _ _) _ _ => apply post_log
  | |- post (read_time _) _ _ => apply post_read_time
  | |- post (write_time _ _) _ _ => apply post_write_time
  | |- post (time_time _) _ _ => apply post_time_time
  | |- continue _ _ (inr _) _ => unfold continue at 1
  | |- continue _ _ (inl _) _ => unfold continue at 1
  | |- continue _ _ (getitem (_ :: _) _) _ =>
      cbn [getitem get String.eqb Ascii.eqb Bool.eqb]
  | |- continue _ _ (subscript (VDict (_ :: _)) _) _ =>
      cbn [subscript getitem get String.eqb Ascii.eqb Bool.eqb]
  | |- context [get_default (_ :: _) _ _] =>
      cbn [get_default get String.eqb Ascii.eqb Bool.eqb]
  | |- continue _ _ (TravelConstraints_init (asdict _)) _ => rewrite init_asdict
  | |- continue _ _ ?r _ =>
      match goal with
      | H : r = _ |- _ => rewrite H
      end
  end; cbn beta iota; simpl_state.

Ltac unfold_process :=
  unfold BaseAgent.process, BaseAgent._process_internal,
    ResearchAgent._process_internal, PlanningAgent._process_internal,
    PersonalizationAgent._process_internal.




(** ** A stage returns on every well-formed input *)


(** ** C5: the Research stage with one failed sub-call *)





(** Symbolic execution through every exit: a failing lookup or
    construction splits the run. *)
Ltac explore :=
  repeat first
    [ step
    | match goal with
      | |- continue _ _ ?r _ => destruct r eqn:?
      end ].

(** ** C7 and C10: the [processing_time] inside the payload *)







(** C7: the first Research invocation of the sample request, on a clock
    that reads 100.0 and then 102.5: the call took 2.5 seconds and the agent
    stores 2.5, but the [processing_time] inside the returned result is the
    initial 0.0. *)
Theorem payload_time_is_not_elapsed_time :
  let run := BaseAgent.process answering RESEARCH (research_input "Georgia" georgia) fresh in
  exists payload,
    fst run = inr (VDict payload) /\
    get payload "processing_time" = Some (VFloat 0) /\
    (clock answering 1 - clock answering 0 = 2.5)%float /\
    processing_time RESEARCH (snd run) = 2.5%float /\
    PrimFloat.eqb 0 2.5 = false.
Proof.
  eexists. repeat split; vm_compute; reflexivity.
Qed.

(** ** C9: the optimisation metrics *)

Lemma planning_reports_placeholder_metrics env (input_data : dict) (s : State) :
  post (BaseAgent.process env PLANNING input_data) s
       (fun r _ =>
          match r with
          | inr out => subscript out "optimization_metrics" = inr placeholder_metrics
          | inl _ => True
          end).
Proof.
  destruct s as [n k tr tp tz t].
  unfold_process; unfold_methods; explore; solve [exact I | reflexivity].
Qed.

(** C9: [_calculate_metrics] returns the same four constants for every
    itinerary and every constraints value, and every result the Planning
    stage returns carries exactly these under [optimization_metrics]. *)
Theorem metrics_are_fixed_placeholders :
  (forall (itinerary : value) (constraints : TravelConstraints),
     PlanningAgent._calculate_metrics itinerary constraints
     = VDict [ ("budget_utilization", VFloat 0.85);
               ("geographic_efficiency", VFloat 0.92);
               ("time_efficiency", VFloat 0.88);
               ("preference_match", VFloat 0.91) ]) /\
  (forall env (input_data : dict) (s : State),
     match fst (BaseAgent.process env PLANNING input_data s) with
     | inr out => subscript out "optimization_metrics"
                  = inr (VDict [ ("budget_utilization", VFloat 0.85);
                                 ("geographic_efficiency", VFloat 0.92);
                                 ("time_efficiency", VFloat 0.88);
                                 ("preference_match", VFloat 0.91) ])
     | inl _ => True
     end).
Proof.
  split.
  - reflexivity.
  - intros env input_data s.
    exact (planning_reports_placeholder_metrics env input_data s).
Qed.

(** ** Reading a trace *)

Lemma timeline_app t1 t2 : timeline (t1 ++ t2) = timeline t1 ++ timeline t2.
Proof.
  induction t1 as [|[] t1 IH]; cbn; now rewrite ?IH.
Qed.





(** ** The whole pipeline *)




(** ** C1: constraints are not validated *)




(** ** C3: per-stage times and their total *)




(** ** C2: every provider call fails *)




(** ** C6: the stages run one after the other *)


(** In the pipeline order each stage is entered only after the previous
    one has returned. *)
Lemma pipeline_order :
  pipeline =
  [ Entered RESEARCH; Called RESEARCH; Called RESEARCH; Called RESEARCH;
    Called RESEARCH; Called RESEARCH; Called RESEARCH; Returned RESEARCH;
    Entered PLANNING; Called PLANNING; Called PLANNING; Called PLANNING;
    Returned PLANNING;
    Entered PERSONALIZATION; Called PERSONALIZATION; Called PERSONALIZATION;
    Returned PERSONALIZATION ].
Proof. reflexivity. Qed.

(** ** C8: what each stage receives *)





(** ** C10: the payload carries the previous stored time *)



(** * Further properties of the code *)

(** ** The constraint record and its constructor *)

(** X1: building the constraints back from [asdict] gives the same
    record, and [asdict] lists the seven fields in declaration order. *)
Theorem constraints_roundtrip (c : TravelConstraints) :
  TravelConstraints_init (asdict c) = inr c /\
  exists d, asdict c = VDict d /\ keys d = field_names.
Proof.
  split; [apply init_asdict|].
  eexists. split; reflexivity.
Qed.

(** X2: the constructor fills the fields left out with their defaults:
    [must_visit] and [avoid] are [None], and [travel_style] is
    [balanced] -- with the five keywords the command line passes, and
    with the four required ones alone. *)
Theorem constructor_defaults (b : float) (n t : Z) (p : list string) (style : string) :
  TravelConstraints_init
    (VDict [ ("total_budget_usd", VFloat b); ("duration_days", VInt n);
             ("traveler_count", VInt t); ("preferences", str_list p);
             ("travel_style", VStr style) ])
  = inr {| total_budget_usd := b; duration_days := n; traveler_count := t;
           preferences := p; must_visit := None; avoid := None;
           travel_style := style |} /\
  TravelConstraints_init
    (VDict [ ("total_budget_usd", VFloat b); ("duration_days", VInt n);
             ("traveler_count", VInt t); ("preferences", str_list p) ])
  = inr {| total_budget_usd := b; duration_days := n; traveler_count := t;
           preferences := p; must_visit := None; avoid := None;
           travel_style := "balanced" |}.
Proof.
  unfold TravelConstraints_init, str_list.
  cbn -[strings_of].
  now rewrite strings_of_map.
Qed.

Lemma unexpected_keyword_rejected (d : dict) (k : string) :
  In k (keys d) -> existsb (String.eqb k) field_names = false ->
  exists msg, TravelConstraints_init (VDict d) = inl (TypeError msg).
Proof.
  intros Hin Hk. unfold TravelConstraints_init.
  destruct (forallb _ (keys d)) eqn:Hall; [|eauto].
  rewrite forallb_forall in Hall. rewrite (Hall k Hin) in Hk. discriminate.
Qed.

Lemma missing_field_rejected (d : dict) (k : string) :
  In k required_fields -> get d k = None ->
  exists msg, TravelConstraints_init (VDict d) = inl (TypeError msg).
Proof.
  intros Hin Hk. unfold TravelConstraints_init.
  destruct (forallb _ (keys d)); [|eauto].
  destruct Hin as [<-|[<-|[<-|[<-|[]]]]]; rewrite Hk;
    repeat match goal with
           | |- context [match get d ?f with _ => _ end] =>
               destruct (get d f) as [[]|]
           end; eauto.
Qed.

(** X3: the constructor raises [TypeError] on a keyword mapping that
    lacks one of the four fields without a default, and on one that holds
    a key which is no field. *)
Theorem constructor_rejects (d : dict) (k : string) :
  (In k required_fields /\ get d k = None) \/
  (In k (keys d) /\ existsb (String.eqb k) field_names = false) ->
  exists msg, TravelConstraints_init (VDict d) = inl (TypeError msg).
Proof.
  intros [[Hin Hk]|[Hin Hk]].
  - now apply (missing_field_rejected d k).
  - now apply (unexpected_keyword_rejected d k).
Qed.

Lemma constructor_rejects_witness :
  (exists msg, TravelConstraints_init (VDict []) = inl (TypeError msg)) /\
  (exists msg,
      TravelConstraints_init
        (VDict [ ("total_budget_usd", VFloat 1500); ("duration_days", VInt 7);
                 ("traveler_count", VInt 2); ("preferences", str_list ["food"]);
                 ("budget", VFloat 1500) ])
      = inl (TypeError msg)).
Proof.
  split.
  - apply (constructor_rejects [] "duration_days").
    left. split; [cbn; auto | reflexivity].
  - apply (constructor_rejects _ "budget").
    right. split; [cbn; auto 10 | reflexivity].
Defined.

(** ** Effects of one stage *)

Lemma requests_app t1 t2 : requests (t1 ++ t2) = requests t1 ++ requests t2.
Proof. induction t1 as [|[] t1 IH]; cbn; now rewrite ?IH. Qed.

Lemma error_logs_app t1 t2 : error_logs (t1 ++ t2) = error_logs t1 + error_logs t2.
Proof. induction t1 as [|[[]| | |] t1 IH]; cbn; now rewrite ?IH. Qed.

Lemma failed_calls_app t1 t2 : failed_calls (t1 ++ t2) = failed_calls t1 + failed_calls t2.
Proof. induction t1 as [|[|? []| |] t1 IH]; cbn; now rewrite ?IH. Qed.

Lemma requests_request_events req o label : requests (request_events req o label) = [req].
Proof. destruct o; reflexivity. Qed.

Lemma error_logs_request_events req o label :
  error_logs (request_events req o label) = if is_failure o then 1 else 0.
Proof. destruct o; reflexivity. Qed.

Lemma failed_calls_request_events req o label :
  failed_calls (request_events req o label) = if is_failure o then 1 else 0.
Proof. destruct o; reflexivity. Qed.

Ltac count_trace :=
  rewrite ?requests_app, ?error_logs_app, ?failed_calls_app,
    ?requests_request_events, ?error_logs_request_events,
    ?failed_calls_request_events;
  cbn [requests error_logs failed_calls app List.length Nat.add].

(** What one invocation of [process] does to the state, on return and on
    exception. *)
Lemma process_effects env (a : AgentType) (input_data : dict) (s : State) :
  post (BaseAgent.process env a input_data) s
       (fun r s' =>
          (forall b, b <> a -> processing_time b s' = processing_time b s) /\
          exists t,
            trace s' = trace s ++ t /\
            error_logs t = failed_calls t /\
            n_calls s' = List.length (requests t) + n_calls s /\
            Forall (fun q => owner (client q) = a) (requests t) /\
            match r with
            | inr _ =>
                List.length (requests t) = stage_calls a /\
                n_ticks s' = 2 + n_ticks s
            | inl _ =>
                processing_time a s' = processing_time a s /\
                n_ticks s' = 1 + n_ticks s /\
                (List.length (requests t) = 0 \/
                 (a = RESEARCH /\ List.length (requests t) = 3))
            end).
Proof.
  destruct s as [n k tr tp tz t0].
  destruct a; unfold_process; unfold_methods; explore.
  all: split; [intros [] Hb; solve [reflexivity | now elim Hb]|].
  all: repeat rewrite <- app_assoc.
  all: eexists; split; [reflexivity|].
  all: count_trace.
  all: split; [reflexivity|].
  all: split; [reflexivity|].
  all: split; [repeat constructor|].
  all: repeat split; auto.
Qed.

(** X5: an invocation of [process] never changes the stored
    [processing_time] of another agent, and an invocation that raises
    leaves the agent's own stored time as it was too. *)
Theorem process_touches_only_its_own_time env (a b : AgentType)
        (input_data : dict) (s : State) :
  b <> a ->
  processing_time b (snd (BaseAgent.process env a input_data s))
    = processing_time b s /\
  match fst (BaseAgent.process env a input_data s) with
  | inl _ =>
      processing_time a (snd (BaseAgent.process env a input_data s))
        = processing_time a s
  | inr _ => True
  end.
Proof.
  intros Hb.
  pose proof (process_effects env a input_data s) as H. unfold post in H.
  destruct H as (Hframe & t & _ & _ & _ & _ & Hr).
  split; [now apply Hframe|].
  destruct (fst (BaseAgent.process env a input_data s)); [apply Hr | exact I].
Qed.

Lemma process_touches_only_its_own_time_witness :
  processing_time PLANNING
    (snd (BaseAgent.process answering RESEARCH (research_input "Georgia" georgia) fresh))
  = processing_time PLANNING fresh /\
  processing_time RESEARCH
    (snd (BaseAgent.process answering RESEARCH (research_input "Georgia" georgia) fresh))
  = 2.5%float.
Proof.
  split.
  - destruct (process_touches_only_its_own_time answering RESEARCH PLANNING
                (research_input "Georgia" georgia) fresh) as [H _].
    + discriminate.
    + exact H.
  - vm_compute. reflexivity.
Defined.


(** ** A missing key *)






(** ** The optional research context *)



(** ** The personalization notes *)



(** ** The whole pipeline: data flow, logging, interruption *)















(** ** The orchestrator with patched stages *)

(** X15: [plan_trip] is [plan_trip_with] over the agents' own [process];
    over patched stages that return fixed mappings holding
    [research_data] and [itinerary], it returns a result with the
    destination and the three mappings as they were returned, makes no
    provider call, and reports the stored times unchanged, their sum as
    [total_processing_time]. *)
Theorem patched_pipeline_returns env (research planning personalization : value)
        (research_data itinerary : value)
        (destination : string) (c : TravelConstraints) (s : State) :
  subscript research "research_data" = inr research_data ->
  subscript planning "itinerary" = inr itinerary ->
  TravelPlanningOrchestrator.plan_trip env destination c
    = plan_trip_with (BaseAgent.process env) destination c /\
  exists s',
    plan_trip_with (mocked research planning personalization) destination c s
    = (inr (VDict
         [ ("destination", VStr destination);
           ("constraints", asdict c);
           ("research_output", research);
           ("planning_output", planning);
           ("personalization_output", personalization);
           ("total_processing_time",
            VFloat (research_time s + planning_time s + personalization_time s));
           ("agent_times",
            VDict [ ("research", VFloat (research_time s));
                    ("planning", VFloat (planning_time s));
                    ("personalization", VFloat (personalization_time s)) ]) ]),
       s') /\
    n_calls s' = n_calls s /\
    timeline (trace s') = timeline (trace s).
Proof.
  intros Hrd Hit.
  split; [reflexivity|].
  cut (post (plan_trip_with (mocked research planning personalization) destination c) s
         (fun r s' =>
            r = inr (VDict
                  [ ("destination", VStr destination);
                    ("constraints", asdict c);
                    ("research_output", research);
                    ("planning_output", planning);
                    ("personalization_output", personalization);
                    ("total_processing_time",
                     VFloat (research_time s + planning_time s
                             + personalization_time s));
                    ("agent_times",
                     VDict [ ("research", VFloat (research_time s));
                             ("planning", VFloat (planning_time s));
                             ("personalization",
                              VFloat (personalization_time s)) ]) ]) /\
            n_calls s' = n_calls s /\
            timeline (trace s') = timeline (trace s))).
  - unfold post.
    destruct (plan_trip_with _ destination c s) as [r s']. cbn [fst snd].
    intros (-> & H). now exists s'.
  - destruct s as [n k tr tp tz t0].
    unfold plan_trip_with, mocked.
    repeat step.
    split; [reflexivity|]. split; [reflexivity|].
    rewrite !timeline_app. cbn [timeline]. now rewrite !app_nil_r.
Qed.

Lemma patched_pipeline_returns_witness :
  exists result s',
    plan_trip_with
      (mocked (VDict [("research_data", VStr "test")])
              (VDict [("itinerary", VStr "test")])
              (VDict [("personalized_itinerary", VStr "test")]))
      "Georgia" georgia fresh
    = (inr (VDict result), s') /\
    get result "destination" = Some (VStr "Georgia") /\
    has_key result "total_processing_time" = true /\
    has_key result "agent_times" = true.
Proof.
  destruct (patched_pipeline_returns answering
              (VDict [("research_data", VStr "test")])
              (VDict [("itinerary", VStr "test")])
              (VDict [("personalized_itinerary", VStr "test")])
              (VStr "test") (VStr "test") "Georgia" georgia fresh)
    as (_ & s' & Hrun & _).
  - reflexivity.
  - reflexivity.
  - eexists _, s'. split; [exact Hrun|]. repeat split.
Defined.

(** X16: when the Research stage returns a mapping without
    [research_data], [plan_trip] raises [KeyError] for that key right
    after the Phase 2 log line: whatever the other two stages are, they
    are not invoked. *)
Theorem missing_research_data_surfaces (process : AgentType -> dict -> M value)
        (destination : string) (c : TravelConstraints) (s s1 : State) (ro : dict) :
  process RESEARCH
    [ ("destination", VStr destination); ("constraints", asdict c) ]
    (record [EvLog INFO [VStr "Phase 1: Research Agent processing..."]]
       (record [EvLog INFO [VStr "Starting trip planning for "; VStr destination]] s))
  = (inr (VDict ro), s1) ->
  get ro "research_data" = None ->
  plan_trip_with process destination c s
  = (inl (KeyError "research_data"),
     record [EvLog INFO [VStr "Phase 2: Planning Agent processing..."]] s1).
Proof.
  intros Hrun Hget.
  unfold plan_trip_with, bind, log, emit.
  rewrite Hrun. cbn [lift subscript getitem].
  unfold getitem. rewrite Hget. reflexivity.
Qed.

Lemma missing_research_data_surfaces_witness :
  fst (plan_trip_with
         (mocked (VDict [("summary", VStr "test")])
                 (VDict [("itinerary", VStr "test")])
                 (VDict [("personalized_itinerary", VStr "test")]))
         "Georgia" georgia fresh)
  = inl (KeyError "research_data").
Proof.
  erewrite (missing_research_data_surfaces
              (mocked (VDict [("summary", VStr "test")])
                      (VDict [("itinerary", VStr "test")])
                      (VDict [("personalized_itinerary", VStr "test")]))
              "Georgia" georgia fresh _ [("summary", VStr "test")]).
  - reflexivity.
  - reflexivity.
  - reflexivity.
Defined.
